(** * Offline-sync layer: cache, mutation queue, drain and network monitor

    A shallow embedding of [lib/storage.ts] (key-value adapter, cache
    manager, mutation queue), [lib/supabase.ts] ([dbHelpers]) and
    [lib/offline.ts] (network monitor, sync engine, offline-aware facade).

    Modelling conventions.
    - JavaScript values that reach the store are JSON values ([json]); a
      value that may also be [undefined] is an [option json] ([jsval]).
      [JSON.stringify] followed by [JSON.parse] is the identity on [json],
      so the persistent store maps each key to the value its text denotes.
      Every read of the store yields a fresh copy, which is why in-place
      array updates ([push], [unshift]) are modelled on values.
      Numbers are the integers the layer computes with (epoch milliseconds
      and durations); the fields of an object are kept in insertion order.
    - The platform store ([localStorage] / [AsyncStorage]) is the durable
      collaborator of the layer and does not fail.
    - Every [await] is run to completion before the next statement; the
      interleaving of two concurrently issued operations is not modelled.
    - The clock, the random generator, the date formatter, the platform and
      the remote service are the host environment ([Host]).  Ghost fields of
      the world record which requests were sent to the remote service and
      which subscribers were notified.  A subscriber is known by its
      identity only: its callback returns normally and does not touch the
      state of the layer. *)

From stdpp Require Import base option list strings gmap pretty.
From Stdlib Require Import ZArith Lia.

#[local] Set Warnings "-register-all".
Local Open Scope Z_scope.

(** ** JSON values *)

Inductive json : Type :=
  | JNull
  | JBool (b : bool)
  | JNum (n : Z)
  | JStr (s : string)
  | JArr (items : list json)
  | JObj (fields : list (string * json)).

(** A JavaScript value: [None] is [undefined]. *)
Definition jsval : Type := option json.

Definition undefined : jsval := None.

(** Truthiness, as used by [||], [!] and [if]. *)
Definition truthy (v : json) : bool :=
  match v with
  | JNull => false
  | JBool b => b
  | JNum n => negb (n =? 0)
  | JStr s => negb (String.eqb s "")
  | JArr _ | JObj _ => true
  end.

Definition truthy_val (v : jsval) : bool :=
  match v with
  | None => false
  | Some j => truthy j
  end.

(** [a || b] *)
Definition js_or (a : jsval) (b : jsval) : jsval :=
  if truthy_val a then a else b.

(** Strict equality [===].  Two arrays or objects are compared by reference;
    wherever the layer compares values the two sides come from different
    reads of the store (or from a caller), so they are never the same
    reference. *)
Definition strict_eq (a b : jsval) : bool :=
  match a, b with
  | None, None => true
  | Some JNull, Some JNull => true
  | Some (JBool x), Some (JBool y) => Bool.eqb x y
  | Some (JNum x), Some (JNum y) => x =? y
  | Some (JStr x), Some (JStr y) => String.eqb x y
  | _, _ => false
  end.

(** Property lookup in an object's own fields. *)
Fixpoint lookup_field (k : string) (fields : list (string * json)) : jsval :=
  match fields with
  | [] => None
  | (k', v) :: rest => if String.eqb k k' then Some v else lookup_field k rest
  end.

(** Property assignment: an existing key keeps its position, a new key is
    added last (insertion order of string keys). *)
Fixpoint set_field (k : string) (v : json) (fields : list (string * json))
  : list (string * json) :=
  match fields with
  | [] => [(k, v)]
  | (k', v') :: rest =>
      if String.eqb k k' then (k, v) :: rest else (k', v') :: set_field k v rest
  end.

Fixpoint chars (s : string) : list string :=
  match s with
  | EmptyString => []
  | String c rest => String c EmptyString :: chars rest
  end.

(** Own enumerable properties, as copied by object spread [{...v}]. *)
Definition own_props (v : jsval) : list (string * json) :=
  match v with
  | Some (JObj fields) => fields
  | Some (JArr items) => imap (fun i x => (pretty i, x)) items
  | Some (JStr s) => imap (fun i c => (pretty i, JStr c)) (chars s)
  | _ => []
  end.

(** [{...a, ...b}]: the fields of [b] assigned over those of [a]. *)
Definition assign (b : list (string * json)) (a : list (string * json))
  : list (string * json) :=
  fold_left (fun acc kv => set_field kv.1 kv.2 acc) b a.

(** A property whose value is [undefined] is dropped by [JSON.stringify];
    such a key is therefore never built. *)
Definition set_opt (k : string) (v : jsval) (fields : list (string * json))
  : list (string * json) :=
  match v with
  | Some j => set_field k j fields
  | None => fields
  end.

(** ** Requests to the remote service *)

Inductive Verb := Select | Insert | Update | Delete.

Record Request := mkRequest {
  verb : Verb;
  table : string;
  payload : list (string * json);      (* record of [insert], patch of [update] *)
  eq_filter : list (string * jsval);   (* [.eq(column, value)] *)
}.

(** The client's answer [{ data, error }]. *)
Inductive Response :=
  | RData (data : json)
  | RError (error : json).

Inductive Error :=
  | TypeError (msg : string)
  | RemoteError (error : json).

Inductive Platform := web | native.

Definition Listener := nat.

(** ** Host environment *)

Class Host := {
  OS : Platform;
  (** the value of the [k]-th reading of the clock, in epoch milliseconds *)
  clock : nat -> Z;
  (** the text of the [k]-th [Math.random()] *)
  random : nat -> string;
  (** [new Date(t).toISOString()] *)
  toISOString : Z -> string;
  (** the answer of the remote service to a request, given the requests
      sent before it *)
  remote : list Request -> Request -> Response;
}.

(** ** The world *)

Record World := mkWorld {
  store : gmap string json;
  isOnline : bool;
  networkListeners : list Listener;
  clock_reads : nat;
  random_draws : nat;
  requests : list Request;              (* ghost: sent so far, oldest first *)
  notified : list (Listener * bool);    (* ghost: subscriber invocations *)
  console : list string;                (* ghost: logged messages *)
}.

Definition set_store (f : gmap string json -> gmap string json) (w : World) : World :=
  mkWorld (f (store w)) (isOnline w) (networkListeners w) (clock_reads w)
          (random_draws w) (requests w) (notified w) (console w).

Definition set_isOnline (b : bool) (w : World) : World :=
  mkWorld (store w) b (networkListeners w) (clock_reads w)
          (random_draws w) (requests w) (notified w) (console w).

Definition set_networkListeners (f : list Listener -> list Listener) (w : World) : World :=
  mkWorld (store w) (isOnline w) (f (networkListeners w)) (clock_reads w)
          (random_draws w) (requests w) (notified w) (console w).

Definition tick (w : World) : World :=
  mkWorld (store w) (isOnline w) (networkListeners w) (S (clock_reads w))
          (random_draws w) (requests w) (notified w) (console w).

Definition draw (w : World) : World :=
  mkWorld (store w) (isOnline w) (networkListeners w) (clock_reads w)
          (S (random_draws w)) (requests w) (notified w) (console w).

Definition sent (r : Request) (w : World) : World :=
  mkWorld (store w) (isOnline w) (networkListeners w) (clock_reads w)
          (random_draws w) (requests w ++ [r]) (notified w) (console w).

Definition called (l : Listener) (b : bool) (w : World) : World :=
  mkWorld (store w) (isOnline w) (networkListeners w) (clock_reads w)
          (random_draws w) (requests w) (notified w ++ [(l, b)]) (console w).

Definition logged (msg : string) (w : World) : World :=
  mkWorld (store w) (isOnline w) (networkListeners w) (clock_reads w)
          (random_draws w) (requests w) (notified w) (console w ++ [msg]).

(** The state of a process that has just started on an empty store:
    [let isOnline = true; let networkListeners = []]. *)
Definition initial_world : World :=
  mkWorld ∅ true [] 0 0 [] [] [].

(** A restart keeps the persistent store and resets the module state. *)
Definition restart (w : World) : World :=
  mkWorld (store w) true [] (clock_reads w) (random_draws w)
          (requests w) (notified w) (console w).

(** ** Computations: state and exceptions *)

Inductive Result (A : Type) :=
  | Ok (a : A)
  | Throw (e : Error).
Arguments Ok {A} a.
Arguments Throw {A} e.

Definition M (A : Type) : Type := World -> Result A * World.

Definition ret {A} (a : A) : M A := fun w => (Ok a, w).

Definition bind {A B} (m : M A) (k : A -> M B) : M B :=
  fun w => match m w with
           | (Ok a, w') => k a w'
           | (Throw e, w') => (Throw e, w')
           end.

Definition throw {A} (e : Error) : M A := fun w => (Throw e, w).

(** [try { body } catch (e) { handler(e) }] *)
Definition try_catch {A} (body : M A) (handler : Error -> M A) : M A :=
  fun w => match body w with
           | (Ok a, w') => (Ok a, w')
           | (Throw e, w') => handler e w'
           end.

Definition modify (f : World -> World) : M unit := fun w => (Ok tt, f w).

Definition gets {A} (f : World -> A) : M A := fun w => (Ok (f w), w).

#[global] Instance M_ret : MRet M := @ret.
#[global] Instance M_bind : MBind M := fun A B k m => bind m k.

(** The final world and the returned value of a run. *)
Definition exec {A} (m : M A) (w : World) : World := (m w).2.
Definition eval {A} (m : M A) (w : World) : Result A := (m w).1.

(** ** Host primitives *)

(** [Date.now()] *)
Definition Date_now `{Host} : M Z :=
  fun w => (Ok (clock (clock_reads w)), tick w).

(** [new Date().toISOString()] *)
Definition Date_toISOString `{Host} : M string :=
  t ← Date_now; mret (toISOString t).

(** [Math.random()], as the text a template literal renders *)
Definition Math_random `{Host} : M string :=
  fun w => (Ok (random (random_draws w)), draw w).

Definition console_error (msg : string) : M unit := modify (logged msg).
Definition console_warn (msg : string) : M unit := modify (logged msg).

(** Property access [v.k]; reading a property of [null] or [undefined]
    throws. *)
Definition get_prop (k : string) (v : jsval) : M jsval :=
  match v with
  | None | Some JNull => throw (TypeError "Cannot read properties of null or undefined")
  | Some (JObj fields) => mret (lookup_field k fields)
  | Some _ => mret undefined
  end.

(** The elements of an array receiver of [push], [unshift], [map],
    [filter] or [find]; any other receiver has no such method. *)
Definition as_array (v : jsval) : M (list json) :=
  match v with
  | Some (JArr items) => mret items
  | _ => throw (TypeError "is not a function")
  end.

(** The elements visited by [for (const x of v)]. *)
Definition iterate (v : jsval) : M (list json) :=
  match v with
  | Some (JArr items) => mret items
  | Some (JStr s) => mret (JStr <$> chars s)
  | _ => throw (TypeError "is not iterable")
  end.

(** [xs.map(f)] for a callback that may read the clock or throw. *)
Fixpoint mapM {A B} (f : A -> M B) (xs : list A) : M (list B) :=
  match xs with
  | [] => mret []
  | x :: rest => y ← f x; ys ← mapM f rest; mret (y :: ys)
  end.

(** [xs.filter(f)] *)
Fixpoint filterM {A} (f : A -> M bool) (xs : list A) : M (list A) :=
  match xs with
  | [] => mret []
  | x :: rest =>
      keep ← f x; ys ← filterM f rest; mret (if keep : bool then x :: ys else ys)
  end.

(** [xs.find(f)] *)
Fixpoint findM {A} (f : A -> M bool) (xs : list A) : M (option A) :=
  match xs with
  | [] => mret None
  | x :: rest => hit ← f x; if hit : bool then mret (Some x) else findM f rest
  end.

(** [for (const x of xs) body(x)] *)
Fixpoint forM_ {A} (body : A -> M unit) (xs : list A) : M unit :=
  match xs with
  | [] => mret tt
  | x :: rest => body x;; forM_ body rest
  end.

(** ** storage.ts: key-value adapter *)

Definition storeData (key : string) (value : json) : M unit :=
  try_catch (modify (set_store <[key := value]>))
            (fun _ => console_error "Error storing data:").

Definition getData (key : string) : M json :=
  try_catch (jsonValue ← gets (fun w => store w !! key);
             mret (match jsonValue with Some v => v | None => JNull end))
            (fun _ => console_error "Error reading data:";; mret JNull).

Definition removeData (key : string) : M unit :=
  try_catch (modify (set_store (delete key)))
            (fun _ => console_error "Error removing data:").

(** ** storage.ts: offlineStorage *)

(** The [operation] parameter of [queueOperation]. *)
Inductive OpType := OpCreate | OpUpdate | OpDelete.

Definition OpType_text (t : OpType) : string :=
  match t with
  | OpCreate => "create"
  | OpUpdate => "update"
  | OpDelete => "delete"
  end.

Record Operation := mkOperation {
  op_type : OpType;
  op_table : string;
  op_data : json;
  op_id : option string;
}.

(** The object literal passed by the caller. *)
Definition Operation_fields (o : Operation) : list (string * json) :=
  set_opt "id" (JStr <$> op_id o)
    [("type", JStr (OpType_text (op_type o)));
     ("table", JStr (op_table o));
     ("data", op_data o)].

Module offlineStorage.

Definition default_ttl : Z := 3600000.

Definition cache_key (key : string) : string := "cache_" +:+ key.

Definition cacheItem (data : json) (timestamp ttl : Z) : json :=
  JObj [("data", data); ("timestamp", JNum timestamp); ("ttl", JNum ttl)].

Definition cacheData `{Host} (key : string) (data : json) (ttl : option Z) : M unit :=
  let ttl := default default_ttl ttl in
  now ← Date_now;
  storeData (cache_key key) (cacheItem data now ttl).

(** The number a value denotes in [-] and [>]; [None] is [NaN].  Cache
    items written by [cacheData] hold numbers; strings, arrays and objects
    in these positions are treated as [NaN]. *)
Definition to_number (v : jsval) : option Z :=
  match v with
  | Some (JNum n) => Some n
  | Some JNull => Some 0
  | Some (JBool b) => Some (if b then 1 else 0)
  | _ => None
  end.

(** [now - timestamp > ttl]; a comparison with [NaN] is false. *)
Definition isExpired (now : Z) (timestamp ttl : jsval) : bool :=
  match to_number timestamp, to_number ttl with
  | Some t, Some l => l <? now - t
  | _, _ => false
  end.

Definition getCachedData `{Host} (key : string) : M jsval :=
  try_catch
    (cacheItem ← getData (cache_key key);
     if negb (truthy cacheItem) then mret (Some JNull)
     else
       data ← get_prop "data" (Some cacheItem);
       timestamp ← get_prop "timestamp" (Some cacheItem);
       ttl ← get_prop "ttl" (Some cacheItem);
       now ← Date_now;
       if isExpired now timestamp ttl then
         removeData (cache_key key);; mret (Some JNull)
       else mret data)
    (fun _ => console_error "Error getting cached data:";; mret (Some JNull)).

Definition queue_key : string := "offline_queue".

(** [`temp_${Date.now()}_${Math.random()}`] *)
Definition temp_id (now : Z) (rnd : string) : string :=
  "temp_" +:+ pretty now +:+ "_" +:+ rnd.

(** [operation.id || `temp_...`]; the template is evaluated only when the
    left operand is falsy. *)
Definition operation_id `{Host} (o : Operation) : M string :=
  match op_id o with
  | Some s => if negb (String.eqb s "") then mret s
              else now ← Date_now; rnd ← Math_random; mret (temp_id now rnd)
  | None => now ← Date_now; rnd ← Math_random; mret (temp_id now rnd)
  end.

(** [{ ...operation, timestamp, id }] *)
Definition queued (o : Operation) (timestamp : Z) (id : string) : json :=
  JObj (set_field "id" (JStr id)
          (set_field "timestamp" (JNum timestamp) (Operation_fields o))).

(** The argument of [queue.push] is evaluated before the call, so the clock
    and the generator are read even when [queue] has no [push]. *)
Definition queueOperation `{Host} (operation : Operation) : M unit :=
  try_catch
    (stored ← getData queue_key;
     let queue := js_or (Some stored) (Some (JArr [])) in
     timestamp ← Date_now;
     id ← operation_id operation;
     items ← as_array queue;
     storeData queue_key (JArr (items ++ [queued operation timestamp id])))
    (fun _ => console_error "Error queuing operation:").

Definition getQueuedOperations : M jsval :=
  try_catch
    (stored ← getData queue_key;
     mret (js_or (Some stored) (Some (JArr []))))
    (fun _ => console_error "Error getting queued operations:";;
              mret (Some (JArr []))).

Definition clearQueuedOperations : M unit :=
  try_catch (removeData queue_key)
            (fun _ => console_error "Error clearing queue:").

Definition removeQueuedOperation (operationId : jsval) : M unit :=
  try_catch
    (stored ← getData queue_key;
     queue ← as_array (js_or (Some stored) (Some (JArr [])));
     filteredQueue ← filterM (fun op =>
                        id ← get_prop "id" (Some op);
                        mret (negb (strict_eq id operationId))) queue;
     storeData queue_key (JArr filteredQueue))
    (fun _ => console_error "Error removing queued operation:").

End offlineStorage.

(** ** supabase.ts: dbHelpers *)

Module dbHelpers.

(** Send a request and receive [{ data, error }]. *)
Definition send `{Host} (r : Request) : M Response :=
  fun w => (Ok (remote (requests w) r), sent r w).

(** [if (error) throw error; return data;] *)
Definition unwrap (r : Response) : M json :=
  match r with
  | RData data => mret data
  | RError error => throw (RemoteError error)
  end.

(** [if (id) query = query.eq(column, id)] *)
Definition optional_eq (column : string) (id : option string)
  : list (string * jsval) :=
  match id with
  | Some s => if negb (String.eqb s "") then [(column, Some (JStr s))] else []
  | None => []
  end.

Definition select_from `{Host} (tbl column : string) (id : option string) : M json :=
  r ← send (mkRequest Select tbl [] (optional_eq column id));
  unwrap r.

Definition insert_into `{Host} (tbl : string) (record : jsval) : M json :=
  created_at ← Date_toISOString;
  updated_at ← Date_toISOString;
  r ← send (mkRequest Insert tbl
              (set_field "updated_at" (JStr updated_at)
                 (set_field "created_at" (JStr created_at) (own_props record)))
              []);
  unwrap r.

Definition update_in `{Host} (tbl : string) (id updates : jsval) : M json :=
  updated_at ← Date_toISOString;
  r ← send (mkRequest Update tbl
              (set_field "updated_at" (JStr updated_at) (own_props updates))
              [("id", id)]);
  unwrap r.

Definition getProjects `{Host} (userId : option string) : M json :=
  select_from "projects" "created_by" userId.

Definition createProject `{Host} (project : jsval) : M json :=
  insert_into "projects" project.

Definition updateProject `{Host} (projectId updates : jsval) : M json :=
  update_in "projects" projectId updates.

Definition deleteProject `{Host} (projectId : jsval) : M unit :=
  r ← send (mkRequest Delete "projects" [] [("id", projectId)]);
  match r with
  | RData _ => mret tt
  | RError error => throw (RemoteError error)
  end.

Definition getMilestones `{Host} (projectId : option string) : M json :=
  select_from "milestones" "project_id" projectId.

Definition createMilestone `{Host} (milestone : jsval) : M json :=
  insert_into "milestones" milestone.

Definition updateMilestone `{Host} (milestoneId updates : jsval) : M json :=
  update_in "milestones" milestoneId updates.

Definition createOutsourcing `{Host} (outsourcing : jsval) : M json :=
  insert_into "outsourcing" outsourcing.

Definition updateOutsourcing `{Host} (outsourcingId updates : jsval) : M json :=
  update_in "outsourcing" outsourcingId updates.

Definition createPayment `{Host} (payment : jsval) : M json :=
  insert_into "payments" payment.

Definition updatePayment `{Host} (paymentId updates : jsval) : M json :=
  update_in "payments" paymentId updates.

End dbHelpers.

(** ** offline.ts: sync engine *)

(** [x === 'literal'] *)
Definition is_text (lit : string) (x : jsval) : bool := strict_eq x (Some (JStr lit)).

Definition processQueuedOperation `{Host} (operation : json) : M unit :=
  type ← get_prop "type" (Some operation);
  tbl ← get_prop "table" (Some operation);
  data ← get_prop "data" (Some operation);
  id ← get_prop "id" (Some operation);
  if is_text "projects" tbl then
    if is_text "create" type then dbHelpers.createProject data;; mret tt
    else if is_text "update" type then dbHelpers.updateProject id data;; mret tt
    else if is_text "delete" type then dbHelpers.deleteProject id
    else mret tt
  else if is_text "milestones" tbl then
    if is_text "create" type then dbHelpers.createMilestone data;; mret tt
    else if is_text "update" type then dbHelpers.updateMilestone id data;; mret tt
    else mret tt
  else if is_text "outsourcing" tbl then
    if is_text "create" type then dbHelpers.createOutsourcing data;; mret tt
    else if is_text "update" type then dbHelpers.updateOutsourcing id data;; mret tt
    else mret tt
  else if is_text "payments" tbl then
    if is_text "create" type then dbHelpers.createPayment data;; mret tt
    else if is_text "update" type then dbHelpers.updatePayment id data;; mret tt
    else mret tt
  else console_warn "Unknown table for sync operation:".

(** The body of the [for] loop of [syncOfflineData]. *)
Definition syncOperation `{Host} (operation : json) : M unit :=
  try_catch
    (processQueuedOperation operation;;
     id ← get_prop "id" (Some operation);
     offlineStorage.removeQueuedOperation id)
    (fun _ => console_error "Failed to sync operation:").

Definition syncOfflineData `{Host} : M unit :=
  online ← gets isOnline;
  if negb online then mret tt
  else
    try_catch
      (queuedOperations ← offlineStorage.getQueuedOperations;
       operations ← iterate queuedOperations;
       forM_ syncOperation operations)
      (fun _ => console_error "Error syncing offline data:").

(** ** offline.ts: network monitor *)

(** What the platform reports with a connectivity event: the value of
    [navigator.onLine] for a window [online]/[offline] event, the
    [isConnected] of a NetInfo state ([None] is [null]). *)
Inductive ConnectivityEvent :=
  | WindowEvent (navigator_onLine : bool)
  | NetInfoState (isConnected : option bool).

(** The common body of the two handlers, after the new state is read. *)
Definition onStatus `{Host} (new : bool) : M unit :=
  wasOnline ← gets isOnline;
  modify (set_isOnline new);;
  now_online ← gets isOnline;
  if negb (Bool.eqb wasOnline now_online) then
    listeners ← gets networkListeners;
    forM_ (fun listener => modify (called listener now_online)) listeners;;
    if now_online then syncOfflineData else mret tt
  else mret tt.

Definition updateOnlineStatus `{Host} (navigator_onLine : bool) : M unit :=
  onStatus navigator_onLine.

(** [state.isConnected ?? false] *)
Definition netInfoListener `{Host} (isConnected : option bool) : M unit :=
  onStatus (default false isConnected).

(** The handler [initializeNetworkMonitoring] installs: window events on the
    web, NetInfo states elsewhere. *)
Definition initializeNetworkMonitoring `{Host} (ev : ConnectivityEvent) : M unit :=
  match OS, ev with
  | web, WindowEvent b => updateOnlineStatus b
  | native, NetInfoState c => netInfoListener c
  | _, _ => mret tt
  end.

Definition addNetworkListener (listener : Listener) : M unit :=
  modify (set_networkListeners (fun ls => ls ++ [listener])).

(** The unsubscribe function returned by [addNetworkListener]. *)
Definition removeNetworkListener (listener : Listener) : M unit :=
  modify (set_networkListeners (filter (fun l => l ≠ listener))).

Definition getNetworkStatus : M bool := gets isOnline.

(** ** offline.ts: offline-aware operations *)

Module offlineAwareOperations.

(** [`temp_${Date.now()}`] *)
Definition temp_record_id (now : Z) : string := "temp_" +:+ pretty now.

(** [{ ...data, id, created_at, updated_at }] *)
Definition optimistic (data : json) (id created_at updated_at : string) : json :=
  JObj (set_field "updated_at" (JStr updated_at)
          (set_field "created_at" (JStr created_at)
             (set_field "id" (JStr id) (own_props (Some data))))).

(** [{ ...project, ...updates, updated_at }] *)
Definition merged (project updates : json) (updated_at : string) : json :=
  JObj (set_field "updated_at" (JStr updated_at)
          (assign (own_props (Some updates)) (own_props (Some project)))).

(** The offline branch of [createProject] and [createMilestone]. *)
Definition createOffline `{Host} (tbl : string) (data : json) : M json :=
  offlineStorage.queueOperation (mkOperation OpCreate tbl data None);;
  now ← Date_now;
  created_at ← Date_toISOString;
  updated_at ← Date_toISOString;
  let temp := optimistic data (temp_record_id now) created_at updated_at in
  found ← offlineStorage.getCachedData tbl;
  cached ← as_array (js_or found (Some (JArr [])));
  offlineStorage.cacheData tbl (JArr (temp :: cached)) None;;
  mret temp.

Definition createProject `{Host} (projectData : json) : M json :=
  online ← gets isOnline;
  if online : bool then dbHelpers.createProject (Some projectData)
  else createOffline "projects" projectData.

(** The callback of [cachedProjects.map]. *)
Definition updateCached `{Host} (projectId : string) (updates : json) (project : json)
  : M json :=
  id ← get_prop "id" (Some project);
  if strict_eq id (Some (JStr projectId)) then
    updated_at ← Date_toISOString;
    mret (merged project updates updated_at)
  else mret project.

Definition updateProject `{Host} (projectId : string) (updates : json) : M jsval :=
  online ← gets isOnline;
  if online : bool then
    r ← dbHelpers.updateProject (Some (JStr projectId)) (Some updates); mret (Some r)
  else
    offlineStorage.queueOperation
      (mkOperation OpUpdate "projects" updates (Some projectId));;
    found ← offlineStorage.getCachedData "projects";
    cachedProjects ← as_array (js_or found (Some (JArr [])));
    updatedProjects ← mapM (updateCached projectId updates) cachedProjects;
    offlineStorage.cacheData "projects" (JArr updatedProjects) None;;
    findM (fun p => id ← get_prop "id" (Some p);
                    mret (strict_eq id (Some (JStr projectId))))
          updatedProjects.

(** The body shared by [getProjects] and [getMilestones]. *)
Definition getThrough `{Host} (what cacheKey : string) (read : M json) : M jsval :=
  online ← gets isOnline;
  if online : bool then
    try_catch
      (rows ← read;
       offlineStorage.cacheData cacheKey rows None;;
       mret (Some rows))
      (fun _ =>
         console_warn ("Failed to fetch " +:+ what +:+ " online, using cache:");;
         found ← offlineStorage.getCachedData cacheKey;
         mret (js_or found (Some (JArr []))))
  else
    found ← offlineStorage.getCachedData cacheKey;
    mret (js_or found (Some (JArr []))).

Definition getProjects `{Host} : M jsval :=
  getThrough "projects" "projects" (dbHelpers.getProjects None).

Definition createMilestone `{Host} (milestoneData : json) : M json :=
  online ← gets isOnline;
  if online : bool then dbHelpers.createMilestone (Some milestoneData)
  else createOffline "milestones" milestoneData.

Definition getMilestones `{Host} (projectId : option string) : M jsval :=
  let cacheKey :=
    match projectId with
    | Some s => if negb (String.eqb s "") then "milestones_" +:+ s else "milestones"
    | None => "milestones"
    end in
  getThrough "milestones" cacheKey (dbHelpers.getMilestones projectId).

End offlineAwareOperations.

(** ** Vocabulary of the statements *)

(** The value of [v.k] for a value that is not [null]. *)
Definition field (k : string) (v : json) : jsval :=
  match v with
  | JObj fields => lookup_field k fields
  | _ => None
  end.

(** What [getData(key)] reads. *)
Definition stored (key : string) (w : World) : json :=
  default JNull (store w !! key).

(** The persisted mutation queue lists as [q]: [getData('offline_queue') || []]
    is the array [q]. *)
Definition persisted (w : World) (q : list json) : Prop :=
  js_or (Some (stored offlineStorage.queue_key w)) (Some (JArr [])) = Some (JArr q).


Definition is_Ok {A} (r : Result A) : bool :=
  match r with
  | Ok _ => true
  | Throw _ => false
  end.

(** The remote call a queued operation is dispatched to, if any. *)
Inductive Call :=
  | CInsert (tbl : string) (record : jsval)
  | CUpdate (tbl : string) (id updates : jsval)
  | CDelete (tbl : string) (id : jsval).

Definition known_table (tbl : jsval) : option string :=
  if is_text "projects" tbl then Some "projects"
  else if is_text "milestones" tbl then Some "milestones"
  else if is_text "outsourcing" tbl then Some "outsourcing"
  else if is_text "payments" tbl then Some "payments"
  else None.

Definition dispatch (operation : json) : option Call :=
  let type := field "type" operation in
  let data := field "data" operation in
  let id := field "id" operation in
  match known_table (field "table" operation) with
  | Some tbl =>
      if is_text "create" type then Some (CInsert tbl data)
      else if is_text "update" type then Some (CUpdate tbl id data)
      else if is_text "delete" type && String.eqb tbl "projects"
      then Some (CDelete tbl id)
      else None
  | None => None
  end.

(** What identifies a request apart from the time stamps of its payload. *)
Definition signature (r : Request) : Verb * string * list (string * jsval) :=
  (verb r, table r, eq_filter r).

Definition call_signature (c : Call) : Verb * string * list (string * jsval) :=
  match c with
  | CInsert tbl _ => (Insert, tbl, [])
  | CUpdate tbl id _ => (Update, tbl, [("id", id)])
  | CDelete tbl id => (Delete, tbl, [("id", id)])
  end.



(** The id of the queued operation [op] is the string [s]. *)
Definition has_id (op : json) (s : string) : Prop :=
  field "id" op = Some (JStr s).


(** What [queueOperation] stores for [o]: [{...o, timestamp, id}] where the
    id is the caller's when it gave one, and a generated temporary id
    otherwise. *)
Definition stamped (o : Operation) (j : json) : Prop :=
  ∃ (timestamp : Z) (id : string),
    j = offlineStorage.queued o timestamp id ∧
    match op_id o with
    | Some s => if String.eqb s "" then ∃ t r, id = offlineStorage.temp_id t r
                else id = s
    | None => ∃ t r, id = offlineStorage.temp_id t r
    end.

(** The state a handler is delivered by the platform it was installed on. *)
Definition reported (os : Platform) (ev : ConnectivityEvent) : option bool :=
  match os, ev with
  | web, WindowEvent b => Some b
  | native, NetInfoState c => Some (default false c)
  | _, _ => None
  end.

(** [n] further readings of the clock by the rest of the program. *)
Definition later (n : nat) (w : World) : World := Nat.iter n tick w.

(** The id [queueOperation] assigns to [o] when the clock and the random
    generator are as in [w], and the world after the assignment. *)
Definition id_given (o : Operation) : bool :=
  match op_id o with
  | Some s => negb (String.eqb s "")
  | None => false
  end.

Definition assigned_id `{Host} (o : Operation) (w : World) : string :=
  match op_id o with
  | Some s =>
      if negb (String.eqb s "") then s
      else offlineStorage.temp_id (clock (clock_reads w)) (random (random_draws w))
  | None => offlineStorage.temp_id (clock (clock_reads w)) (random (random_draws w))
  end.

Definition after_assign (o : Operation) (w : World) : World :=
  if id_given o then w else draw (tick w).

(** The helper of [dbHelpers] a call stands for. *)
Definition perform `{Host} (c : Call) : M unit :=
  match c with
  | CInsert tbl record => dbHelpers.insert_into tbl record;; mret tt
  | CUpdate tbl id updates => dbHelpers.update_in tbl id updates;; mret tt
  | CDelete tbl id =>
      r ← dbHelpers.send (mkRequest Delete tbl [] [("id", id)]);
      match r with
      | RData _ => mret tt
      | RError error => throw (RemoteError error)
      end
  end.

(** The invariant of the persisted queue: it lists as operations that each
    have a string id. *)
Definition well_formed_queue (w : World) : Prop :=
  ∃ q, persisted w q ∧ Forall (λ op, ∃ s, has_id op s) q.

(** [op.id !== operationId], the test of [removeQueuedOperation]. *)
Definition other_id (operationId : jsval) (op : json) : bool :=
  negb (strict_eq (field "id" op) operationId).

(** The operations the switch of [processQueuedOperation] has no branch
    for: a delete on milestones, outsourcing or payments, any type on a table
    outside the four, a type outside the three on a known table. *)
Definition unhandled (op : json) : Prop :=
  (is_text "delete" (field "type" op) = true ∧
   known_table (field "table" op) ≠ None ∧
   is_text "projects" (field "table" op) = false) ∨
  known_table (field "table" op) = None ∨
  (is_text "create" (field "type" op) = false ∧
   is_text "update" (field "type" op) = false ∧
   is_text "delete" (field "type" op) = false).

(** ** A concrete host and concrete worlds, for the examples *)

(** The remote service of the examples rejects a record or patch named
    ["bad"], cannot read milestones, and answers any other select with two
    rows. *)
Definition example_rejects (r : Request) : bool :=
  match lookup_field "name" (payload r) with
  | Some (JStr s) => String.eqb s "bad"
  | _ => false
  end.

Definition example_row (name : string) : json :=
  JObj [("id", JStr name); ("name", JStr name)].

Definition example_remote (before : list Request) (r : Request) : Response :=
  match verb r with
  | Select =>
      if String.eqb (table r) "milestones" then RError (JStr "unreachable")
      else RData (JArr [example_row "A"; example_row "B"])
  | _ =>
      if example_rejects r then RError (JStr "rejected")
      else RData (JObj (payload r))
  end.

(** The clock of the examples advances by a millisecond per reading, and by
    two hours at the hundredth reading. *)
Definition example_clock (k : nat) : Z :=
  if (k <? 100)%nat then 1000 + Z.of_nat k else 7201000 + Z.of_nat k.

Definition example_host (os : Platform) : Host :=
  {| OS := os;
     clock := example_clock;
     random := fun k => "0." +:+ pretty k;
     toISOString := fun t => "T" +:+ pretty t;
     remote := example_remote |}.

Definition example_op (type tbl name id : string) (timestamp : Z) : json :=
  JObj [("type", JStr type); ("table", JStr tbl);
        ("data", JObj [("name", JStr name)]);
        ("id", JStr id); ("timestamp", JNum timestamp)].

(** An online process whose persisted queue is [q]. *)
Definition example_world (q : list json) : World :=
  mkWorld {[ "offline_queue" := JArr q ]} true [] 0 0 [] [] [].

(** Three operations with distinct ids; the remote rejects the second. *)
Definition three_ops : list json :=
  [example_op "create" "projects" "first" "temp_1_0.5" 1;
   example_op "update" "projects" "bad" "p7" 2;
   example_op "delete" "projects" "third" "p9" 3].

(** Two updates of the same project; the remote accepts the first and
    rejects the second. *)
Definition same_id_ops : list json :=
  [example_op "update" "projects" "renamed" "p7" 1;
   example_op "update" "projects" "bad" "p7" 2].

(** An operation on a table the switch does not know. *)
Definition stray_ops : list json :=
  [example_op "create" "invoices" "stray" "temp_4_0.25" 4].

(** A create for a temporary id followed by an update of that id. *)
Definition create_then_update : list json :=
  [example_op "create" "projects" "draft" "temp_1" 1;
   example_op "update" "projects" "final" "temp_1" 2].

(** The world after each of the subscribers [ls] was invoked with [b]. *)
Definition notify_all (b : bool) (ls : list Listener) (w : World) : World :=
  fold_left (fun w l => called l b w) ls w.


(** The cache key of [getMilestones]. *)
Definition milestones_key (projectId : option string) : string :=
  match projectId with
  | Some s => if negb (String.eqb s "") then "milestones_" +:+ s else "milestones"
  | None => "milestones"
  end.


(** An offline process with an empty store. *)
Definition offline_world : World := set_isOnline false initial_world.

(** ** storage.ts: the rest of the adapter *)

(** [storage.getAllKeys()]; the order of the keys is the platform's, here
    that of the map. *)
Definition getAllKeys : M (list string) :=
  try_catch (gets (fun w => (map_to_list (store w)).*1))
            (fun _ => console_error "Error getting all keys:";; mret []).

Definition clearAll : M unit :=
  try_catch (modify (set_store (fun _ => ∅)))
            (fun _ => console_error "Error clearing storage:").

(** ** supabase.ts: the other helpers *)

Module dbHelpers_rest.

Definition getProfile `{Host} (userId : jsval) : M json :=
  r ← dbHelpers.send (mkRequest Select "profiles" [] [("id", userId)]);
  dbHelpers.unwrap r.

Definition updateProfile `{Host} (userId updates : jsval) : M json :=
  dbHelpers.update_in "profiles" userId updates.

Definition getOutsourcing `{Host} (projectId : option string) : M json :=
  dbHelpers.select_from "outsourcing" "project_id" projectId.

Definition getPayments `{Host} (projectId : option string) : M json :=
  dbHelpers.select_from "payments" "project_id" projectId.

Definition createActivityLog `{Host} (log : jsval) : M json :=
  created_at ← Date_toISOString;
  r ← dbHelpers.send (mkRequest Insert "activity_logs"
                        (set_field "created_at" (JStr created_at) (own_props log))
                        []);
  dbHelpers.unwrap r.

End dbHelpers_rest.

(** ** Frames: what a computation leaves unchanged *)

(** Every run of [m] relates the world before to the world after by [R],
    whether [m] returns or throws. *)
Definition preserves {A} (R : World -> World -> Prop) (m : M A) : Prop :=
  ∀ w, R w (exec m w).

(** The store holds the same value under [k]. *)
Definition keeps_key (k : string) (w w' : World) : Prop :=
  store w' !! k = store w !! k.

(** The network state and the subscribers are the same, and no subscriber
    was invoked. *)
Definition keeps_network (w w' : World) : Prop :=
  isOnline w' = isOnline w ∧ networkListeners w' = networkListeners w ∧
  notified w' = notified w.

(** No request was sent. *)
Definition keeps_requests (w w' : World) : Prop :=
  requests w' = requests w.

(** Requests were only added. *)
Definition extends_requests (w w' : World) : Prop :=
  ∃ new, requests w' = requests w ++ new.

(** Every run of [m] from a world in [P] ends in a world in [P]. *)
Definition maintains {A} (P : World -> Prop) (m : M A) : Prop :=
  ∀ w, P w -> P (exec m w).

(** [m] returns normally from every world. *)
Definition returns {A} (m : M A) : Prop :=
  ∀ w, ∃ a, eval m w = Ok a.

(** A stored queue that is neither empty-like, nor an array, nor a string. *)
Definition corrupt (v : json) : Prop :=
  truthy v = true ∧ (∀ l, v ≠ JArr l) ∧ (∀ s, v ≠ JStr s).

(** The fields the helpers stamp. *)
Definition stamp (k : string) : Prop := k = "created_at" ∨ k = "updated_at".

(** [p.id === projectId], the test of [updateProject]. *)
Definition is_project (projectId : string) (p : json) : bool :=
  strict_eq (field "id" p) (Some (JStr projectId)).

(** A relation that ignores the clock, the random generator and the log. *)
Class Ghostly (R : World -> World -> Prop) : Prop := {
  ghostly_refl : ∀ w, R w w;
  ghostly_trans : ∀ w1 w2 w3, R w1 w2 -> R w2 w3 -> R w1 w3;
  ghostly_tick : ∀ w, R w (tick w);
  ghostly_draw : ∀ w, R w (draw w);
  ghostly_logged : ∀ msg w, R w (logged msg w);
}.

(** A relation that ignores the requests sent. *)
Class Sendable (R : World -> World -> Prop) : Prop :=
  sendable : ∀ r w, R w (sent r w).

(** [R] tolerates that the value under [key] is written or removed. *)
Definition writes (R : World -> World -> Prop) (key : string) : Prop :=
  (∀ v w, R w (set_store <[key := v]> w)) ∧
  (∀ w, R w (set_store (base.delete key) w)).

(** ** The layer as a state machine *)

(** What the application and the platform can do to the layer. *)
Inductive Action :=
  | ACreateProject (data : json)
  | AUpdateProject (projectId : string) (updates : json)
  | AGetProjects
  | ACreateMilestone (data : json)
  | AGetMilestones (projectId : option string)
  | AEnqueue (operation : Operation)
  | ARemove (operationId : jsval)
  | AClearQueue
  | ACache (key : string) (data : json) (ttl : option Z)
  | ARead (key : string)
  | AClearAll
  | ASync
  | AEvent (ev : ConnectivityEvent)
  | ASubscribe (listener : Listener)
  | AUnsubscribe (listener : Listener)
  | ARestart.

Definition act `{Host} (a : Action) (w : World) : World :=
  match a with
  | ACreateProject data => exec (offlineAwareOperations.createProject data) w
  | AUpdateProject projectId updates =>
      exec (offlineAwareOperations.updateProject projectId updates) w
  | AGetProjects => exec offlineAwareOperations.getProjects w
  | ACreateMilestone data => exec (offlineAwareOperations.createMilestone data) w
  | AGetMilestones projectId => exec (offlineAwareOperations.getMilestones projectId) w
  | AEnqueue operation => exec (offlineStorage.queueOperation operation) w
  | ARemove operationId => exec (offlineStorage.removeQueuedOperation operationId) w
  | AClearQueue => exec offlineStorage.clearQueuedOperations w
  | ACache key data ttl => exec (offlineStorage.cacheData key data ttl) w
  | ARead key => exec (offlineStorage.getCachedData key) w
  | AClearAll => exec clearAll w
  | ASync => exec syncOfflineData w
  | AEvent ev => exec (initializeNetworkMonitoring ev) w
  | ASubscribe listener => exec (addNetworkListener listener) w
  | AUnsubscribe listener => exec (removeNetworkListener listener) w
  | ARestart => restart w
  end.

(** The world after a history of actions, oldest first. *)
Definition after `{Host} (history : list Action) (w : World) : World :=
  fold_left (fun w a => act a w) history w.

(** The state the network monitor holds after a history that starts in
    state [b]: that of the last event its platform delivered, [true] after a
    restart. *)
Fixpoint last_reported (os : Platform) (b : bool) (history : list Action) : bool :=
  match history with
  | [] => b
  | AEvent ev :: rest => last_reported os (default b (reported os ev)) rest
  | ARestart :: rest => last_reported os true rest
  | _ :: rest => last_reported os b rest
  end.

(** What a queued entry built from [o] with id [id] is dispatched to. *)
Definition dispatch_of (o : Operation) (id : string) : option Call :=
  match known_table (Some (JStr (op_table o))) with
  | Some tbl =>
      match op_type o with
      | OpCreate => Some (CInsert tbl (Some (op_data o)))
      | OpUpdate => Some (CUpdate tbl (Some (JStr id)) (Some (op_data o)))
      | OpDelete =>
          if String.eqb tbl "projects" then Some (CDelete tbl (Some (JStr id)))
          else None
      end
  | None => None
  end.

(** * Properties *)

#[local] Arguments offlineStorage.cache_key : simpl never.
#[local] Arguments offlineStorage.temp_id : simpl never.
#[local] Arguments offlineAwareOperations.temp_record_id : simpl never.

(** ** Running a computation, one statement at a time *)

Lemma run_bind {A B} (m : M A) (k : A -> M B) w :
  (m ≫= k) w = match m w with
               | (Ok a, w') => k a w'
               | (Throw e, w') => (Throw e, w')
               end.
Proof. reflexivity. Qed.

Lemma run_ret {A} (a : A) w : (mret a : M A) w = (Ok a, w).
Proof. reflexivity. Qed.

Lemma run_throw {A} e w : (throw e : M A) w = (Throw e, w).
Proof. reflexivity. Qed.

Lemma run_try {A} (body : M A) handler w :
  try_catch body handler w = match body w with
                             | (Ok a, w') => (Ok a, w')
                             | (Throw e, w') => handler e w'
                             end.
Proof. reflexivity. Qed.

Lemma run_gets {A} (f : World -> A) w : gets f w = (Ok (f w), w).
Proof. reflexivity. Qed.

Lemma run_modify f w : modify f w = (Ok tt, f w).
Proof. reflexivity. Qed.

Lemma run_getData key w : getData key w = (Ok (stored key w), w).
Proof. reflexivity. Qed.

Lemma run_storeData key v w :
  storeData key v w = (Ok tt, set_store <[key := v]> w).
Proof. reflexivity. Qed.

Lemma run_removeData key w :
  removeData key w = (Ok tt, set_store (base.delete key) w).
Proof. reflexivity. Qed.

Lemma run_get_prop k v w : v ≠ JNull -> get_prop k (Some v) w = (Ok (field k v), w).
Proof. destruct v; intros; try reflexivity. congruence. Qed.

Lemma run_console_error msg w : console_error msg w = (Ok tt, logged msg w).
Proof. reflexivity. Qed.

Lemma run_console_warn msg w : console_warn msg w = (Ok tt, logged msg w).
Proof. reflexivity. Qed.

Lemma run_Date_now `{Host} w : Date_now w = (Ok (clock (clock_reads w)), tick w).
Proof. reflexivity. Qed.

Lemma run_Date_toISOString `{Host} w :
  Date_toISOString w = (Ok (toISOString (clock (clock_reads w))), tick w).
Proof. reflexivity. Qed.

Lemma run_Math_random `{Host} w :
  Math_random w = (Ok (random (random_draws w)), draw w).
Proof. reflexivity. Qed.

Create Rewrite HintDb run.
#[local] Hint Rewrite @run_bind @run_ret @run_throw @run_try @run_gets run_modify
  run_getData run_storeData run_removeData run_console_error run_console_warn
  @run_Date_now @run_Date_toISOString @run_Math_random : run.

Ltac run := repeat (autorewrite with run; simpl).

(** ** Cache manager *)

Section Cache.
Context `{Host}.

Lemma run_cacheData key data ttl w :
  offlineStorage.cacheData key data ttl w =
  (Ok tt,
   set_store <[offlineStorage.cache_key key :=
                 offlineStorage.cacheItem data (clock (clock_reads w))
                   (default offlineStorage.default_ttl ttl)]> (tick w)).
Proof. reflexivity. Qed.

Lemma run_getCachedData_fresh key data t ttl w :
  store w !! offlineStorage.cache_key key
  = Some (offlineStorage.cacheItem data t ttl) ->
  clock (clock_reads w) - t <= ttl ->
  offlineStorage.getCachedData key w = (Ok (Some data), tick w).
Proof.
  intros Hs Hle. unfold offlineStorage.getCachedData. run.
  unfold stored. rewrite Hs. run. unfold offlineStorage.isExpired. simpl.
  destruct (Z.ltb_spec ttl (clock (clock_reads w) - t)); [lia|]. reflexivity.
Qed.

Lemma run_getCachedData_expired key data t ttl w :
  store w !! offlineStorage.cache_key key
  = Some (offlineStorage.cacheItem data t ttl) ->
  ttl < clock (clock_reads w) - t ->
  offlineStorage.getCachedData key w
  = (Ok (Some JNull),
     set_store (base.delete (offlineStorage.cache_key key)) (tick w)).
Proof.
  intros Hs Hle. unfold offlineStorage.getCachedData. run.
  unfold stored. rewrite Hs. run. unfold offlineStorage.isExpired. simpl.
  destruct (Z.ltb_spec ttl (clock (clock_reads w) - t)); [|lia]. reflexivity.
Qed.

Lemma run_getCachedData_absent key w :
  store w !! offlineStorage.cache_key key = None ->
  offlineStorage.getCachedData key w = (Ok (Some JNull), w).
Proof.
  intros Hs. unfold offlineStorage.getCachedData. run.
  unfold stored. rewrite Hs. reflexivity.
Qed.

(** C2. A cached entry [{data, timestamp, ttl}] is returned while
    [now - timestamp <= ttl], in particular one millisecond before
    [timestamp + ttl]; once [now - timestamp > ttl], in particular one
    millisecond after [timestamp + ttl], the read returns [null] and the
    entry is deleted from the store; a key without entry reads as [null].
    [cacheData] writes [{data, timestamp: now, ttl}] under [cache_<key>],
    with a ttl of 3600000 ms when none is given, and touches no other key. *)
Theorem cache_ttl key data timestamp ttl w :
  store w !! ("cache_" +:+ key)
  = Some (JObj [("data", data); ("timestamp", JNum timestamp); ("ttl", JNum ttl)]) ->
  let now := clock (clock_reads w) in
  let w' := exec (offlineStorage.getCachedData key) w in
  (now - timestamp <= ttl ->
     eval (offlineStorage.getCachedData key) w = Ok (Some data) ∧
     store w' = store w) ∧
  (now = timestamp + ttl - 1 ->
     eval (offlineStorage.getCachedData key) w = Ok (Some data)) ∧
  (now - timestamp > ttl ->
     eval (offlineStorage.getCachedData key) w = Ok (Some JNull) ∧
     store w' = base.delete ("cache_" +:+ key) (store w)) ∧
  (now = timestamp + ttl + 1 ->
     eval (offlineStorage.getCachedData key) w = Ok (Some JNull) ∧
     store w' !! ("cache_" +:+ key) = None) ∧
  (∀ w0, store w0 !! ("cache_" +:+ key) = None ->
     offlineStorage.getCachedData key w0 = (Ok (Some JNull), w0)) ∧
  (∀ w0 d given,
     let w1 := exec (offlineStorage.cacheData key d given) w0 in
     store w1 !! ("cache_" +:+ key)
     = Some (JObj [("data", d); ("timestamp", JNum (clock (clock_reads w0)));
                   ("ttl", JNum (default 3600000 given))]) ∧
     ∀ k, k ≠ "cache_" +:+ key -> store w1 !! k = store w0 !! k).
Proof.
  intros Hs now w'. subst now w'. unfold exec, eval.
  assert (Hfresh := run_getCachedData_fresh _ _ _ _ _ Hs).
  assert (Hold := run_getCachedData_expired _ _ _ _ _ Hs).
  split_and!; intros.
  - rewrite Hfresh by lia. done.
  - rewrite Hfresh by lia. done.
  - rewrite Hold by lia. done.
  - rewrite Hold by lia. simpl. split; [done | apply lookup_delete_eq].
  - by apply run_getCachedData_absent.
  - rewrite run_cacheData. simpl. split; [apply lookup_insert_eq |].
    intros k Hk. by apply lookup_insert_ne.
Qed.

End Cache.

(** ** Mutation queue *)

#[local] Arguments js_or : simpl never.

Ltac step := repeat (autorewrite with run; cbv beta iota).

Lemma persisted_after_store w l :
  persisted (set_store <[offlineStorage.queue_key := JArr l]> w) l.
Proof.
  unfold persisted, stored. simpl. by rewrite lookup_insert_eq.
Qed.

Lemma persisted_inj w q1 q2 : persisted w q1 -> persisted w q2 -> q1 = q2.
Proof. unfold persisted. congruence. Qed.

Lemma persisted_same_store w w' q :
  store w' = store w -> persisted w q -> persisted w' q.
Proof. unfold persisted, stored. by intros ->. Qed.

Lemma persisted_empty w :
  store w !! offlineStorage.queue_key = None -> persisted w [].
Proof. unfold persisted, stored. by intros ->. Qed.

Lemma run_getQueuedOperations w :
  offlineStorage.getQueuedOperations w
  = (Ok (js_or (Some (stored offlineStorage.queue_key w)) (Some (JArr []))), w).
Proof. reflexivity. Qed.

Section Queue.
Context `{Host}.

Lemma run_operation_id o w :
  offlineStorage.operation_id o w = (Ok (assigned_id o w), after_assign o w).
Proof.
  unfold offlineStorage.operation_id, assigned_id, after_assign, id_given.
  destruct (op_id o) as [s|]; [destruct (String.eqb s "")|]; reflexivity.
Qed.

Lemma run_queueOperation o w q :
  persisted w q ->
  offlineStorage.queueOperation o w
  = (Ok tt,
     set_store <[offlineStorage.queue_key :=
                   JArr (q ++ [offlineStorage.queued o (clock (clock_reads w))
                                 (assigned_id o (tick w))])]>
       (after_assign o (tick w))).
Proof.
  intros Hq. unfold offlineStorage.queueOperation. step. cbv zeta.
  rewrite run_operation_id. step. rewrite Hq. simpl as_array. step.
  reflexivity.
Qed.

Lemma stamped_queued o t w : stamped o (offlineStorage.queued o t (assigned_id o w)).
Proof.
  exists t, (assigned_id o w). split; [reflexivity|]. unfold assigned_id.
  destruct (op_id o) as [s|]; [destruct (String.eqb s "")|]; simpl; eauto.
Qed.

Lemma store_after_assign o w : store (after_assign o w) = store w.
Proof. unfold after_assign. by destruct (id_given o). Qed.



End Queue.

(** ** Removing from the queue *)

Lemma get_prop_state k v w : (get_prop k v w).2 = w.
Proof. by destruct v as [[]|]. Qed.

Lemma filterM_state {A} (f : A -> M bool) xs :
  (∀ x w, (f x w).2 = w) -> ∀ w, (filterM f xs w).2 = w.
Proof.
  intros Hf. induction xs as [|x xs IH]; intros w; [done|].
  simpl. step. specialize (Hf x w). destruct (f x w) as [[keep|e] w1];
    simpl in Hf; subst w1; [|done].
  step. specialize (IH w).
  destruct (filterM f xs w) as [[ys|e] w2]; simpl in IH; subst w2; by step.
Qed.

Lemma run_filterM_other_id operationId q w :
  Forall (λ op, op ≠ JNull) q ->
  filterM (fun op => id ← get_prop "id" (Some op);
                     mret (negb (strict_eq id operationId))) q w
  = (Ok (List.filter (other_id operationId) q), w).
Proof.
  induction 1 as [|op q Hop Hq IH]; [done|].
  cbn [filterM]. step. rewrite run_get_prop by done. step. rewrite IH. step.
  reflexivity.
Qed.

Lemma run_removeQueuedOperation operationId w q :
  persisted w q ->
  Forall (λ op, op ≠ JNull) q ->
  offlineStorage.removeQueuedOperation operationId w
  = (Ok tt, set_store <[offlineStorage.queue_key :=
                          JArr (List.filter (other_id operationId) q)]> w).
Proof.
  intros Hq Hwf. unfold offlineStorage.removeQueuedOperation. step.
  rewrite Hq. simpl as_array. step.
  rewrite run_filterM_other_id by done. step. reflexivity.
Qed.


(** Whatever the store holds, [removeQueuedOperation] returns normally and
    either rewrites the queue or logs. *)
Lemma removeQueuedOperation_total operationId w :
  ∃ w', offlineStorage.removeQueuedOperation operationId w = (Ok tt, w') ∧
        ((∃ l, w' = set_store <[offlineStorage.queue_key := JArr l]> w) ∨
         w' = logged "Error removing queued operation:" w).
Proof.
  unfold offlineStorage.removeQueuedOperation. step.
  destruct (js_or _ _) as [[| | | |items|]|]; simpl as_array; step; eauto.
  match goal with |- context [filterM ?f items w] =>
    pose proof (filterM_state f items (fun x w0 => ltac:(step; destruct (get_prop "id" (Some x) w0) as [[]] eqn:E; pose proof (get_prop_state "id" (Some x) w0) as Hg; rewrite E in Hg; simpl in Hg; subst; done)) w) as Hst;
    destruct (filterM f items w) as [[l|e] w1]
  end; simpl in Hst; subst w1; step; eauto.
Qed.

Section Drain.
Context `{Host}.

Lemma run_send r w : dbHelpers.send r w = (Ok (remote (requests w) r), sent r w).
Proof. reflexivity. Qed.

Lemma run_perform c w :
  ∃ r k,
    signature r = call_signature c ∧
    perform c w
    = (match remote (requests w) r with
       | RData _ => Ok tt
       | RError error => Throw (RemoteError error)
       end, sent r (later k w)).
Proof.
  destruct c as [tbl record|tbl id updates|tbl id]; unfold perform;
    [unfold dbHelpers.insert_into | unfold dbHelpers.update_in |];
    unfold dbHelpers.unwrap; step; rewrite run_send; cbv beta iota.
  all: match goal with |- context [sent ?r _] => exists r end.
  - exists 2%nat. split; [done|]. simpl requests. by destruct (remote _ _).
  - exists 1%nat. split; [done|]. simpl requests. by destruct (remote _ _).
  - exists 0%nat. split; [done|]. simpl requests. by destruct (remote _ _).
Qed.

Lemma run_processQueuedOperation op w :
  op ≠ JNull ->
  processQueuedOperation op w
  = match dispatch op with
    | Some c => perform c w
    | None =>
        (Ok tt,
         match known_table (field "table" op) with
         | Some _ => w
         | None => logged "Unknown table for sync operation:" w
         end)
    end.
Proof.
  intros Hop. unfold processQueuedOperation.
  repeat (step; rewrite ?run_get_prop by done).
  unfold dispatch, known_table.
  repeat match goal with
         | |- context [is_text ?a ?b] => destruct (is_text a b) eqn:?
         end; simpl; try reflexivity.
  all: unfold dbHelpers.createProject, dbHelpers.updateProject, dbHelpers.deleteProject,
    dbHelpers.createMilestone, dbHelpers.updateMilestone, dbHelpers.createOutsourcing,
    dbHelpers.updateOutsourcing, dbHelpers.createPayment, dbHelpers.updatePayment.
  all: try reflexivity.
Qed.

Lemma null_or_not (v : json) : v = JNull ∨ v ≠ JNull.
Proof. destruct v; (by left) || by right. Qed.

#[local] Hint Rewrite @run_send : run.


Lemma later_frame k w :
  store (later k w) = store w ∧ isOnline (later k w) = isOnline w ∧
  networkListeners (later k w) = networkListeners w ∧
  requests (later k w) = requests w ∧ notified (later k w) = notified w.
Proof. induction k as [|k IH]; [done|]. simpl. apply IH. Qed.

Lemma dispatch_null : dispatch JNull = None.
Proof. reflexivity. Qed.

(** A replay touches neither the store nor the network state, and sends
    exactly the request of its dispatch branch, if it has one. *)
Lemma processQueuedOperation_frame op w :
  let w1 := exec (processQueuedOperation op) w in
  store w1 = store w ∧ isOnline w1 = isOnline w ∧
  networkListeners w1 = networkListeners w ∧ notified w1 = notified w ∧
  ∃ new, requests w1 = requests w ++ new ∧
         signature <$> new = call_signature <$> option_list (dispatch op).
Proof.
  unfold exec. destruct (null_or_not op) as [->|Hop].
  { simpl. repeat split; try done. exists []. by rewrite app_nil_r. }
  rewrite run_processQueuedOperation by done.
  destruct (dispatch op) as [c|].
  - destruct (run_perform c w) as (r & k & Hsig & ->). simpl.
    destruct (later_frame k w) as (-> & -> & -> & -> & ->).
    repeat split; try done. exists [r]. split; [done|]. simpl. by rewrite Hsig.
  - simpl. destruct (known_table _); simpl; repeat split; try done;
      exists []; by rewrite app_nil_r.
Qed.

Lemma processQueuedOperation_null w :
  eval (processQueuedOperation JNull) w ≠ Ok tt.
Proof. done. Qed.

Lemma run_syncOperation op w :
  syncOperation op w
  = (Ok tt,
     if is_Ok (eval (processQueuedOperation op) w)
     then exec (offlineStorage.removeQueuedOperation (field "id" op))
               (exec (processQueuedOperation op) w)
     else logged "Failed to sync operation:" (exec (processQueuedOperation op) w)).
Proof.
  unfold syncOperation, eval, exec. step.
  destruct (processQueuedOperation op w) as [[[]|e] w1] eqn:E; step; [|done].
  assert (op ≠ JNull) as Hop by (intros ->; discriminate E).
  rewrite run_get_prop by done. step. cbn [fst snd is_Ok].
  destruct (removeQueuedOperation_total (field "id" op) w1) as (w2 & -> & _).
  done.
Qed.

Lemma run_forM_sync_cons op ops w :
  forM_ syncOperation (op :: ops) w
  = forM_ syncOperation ops (exec (syncOperation op) w).
Proof. cbn [forM_]. step. unfold exec. by rewrite run_syncOperation. Qed.

Lemma forM_sync_returns ops : ∀ w, eval (forM_ syncOperation ops) w = Ok tt.
Proof.
  induction ops as [|op ops IH]; intros w; [done|].
  unfold eval. rewrite run_forM_sync_cons. apply IH.
Qed.

Lemma run_syncOfflineData w q :
  isOnline w = true ->
  persisted w q ->
  syncOfflineData w = (Ok tt, exec (forM_ syncOperation q) w).
Proof.
  intros Hon Hq. unfold syncOfflineData. step. rewrite Hon. change (negb true) with false. cbv iota.
  step. rewrite run_getQueuedOperations. step. rewrite Hq. simpl iterate. step.
  pose proof (forM_sync_returns q w) as Hr. unfold eval, exec in *.
  destruct (forM_ syncOperation q w) as [r w']. simpl in Hr. by subst.
Qed.

Lemma run_syncOfflineData_offline w :
  isOnline w = false -> syncOfflineData w = (Ok tt, w).
Proof. intros Hoff. unfold syncOfflineData. step. by rewrite Hoff. Qed.

(** One step of the pass: what it sends and what it leaves of the world. *)
Lemma syncOperation_frame op w :
  let w2 := exec (syncOperation op) w in
  isOnline w2 = isOnline w ∧ networkListeners w2 = networkListeners w ∧
  notified w2 = notified w ∧
  ∃ new, requests w2 = requests w ++ new ∧
         signature <$> new = call_signature <$> option_list (dispatch op).
Proof.
  unfold exec at 1. rewrite run_syncOperation. cbn [snd].
  destruct (processQueuedOperation_frame op w) as (Hs & Ho & Hl & Hn & new & Hr & Hsig).
  set (w1 := exec (processQueuedOperation op) w) in *.
  destruct (is_Ok _).
  - destruct (removeQueuedOperation_total (field "id" op) w1)
      as (w2 & E & [[l ->] | ->]); unfold exec; rewrite E; simpl; eauto 10.
  - simpl. eauto 10.
Qed.

(** The requests of a pass are those of its operations, in list order. *)
Lemma drain_requests ops : ∀ w,
  ∃ new, requests (exec (forM_ syncOperation ops) w) = requests w ++ new ∧
         signature <$> new = call_signature <$> omap dispatch ops.
Proof.
  induction ops as [|op ops IH]; intros w.
  - exists []. by rewrite app_nil_r.
  - unfold exec. rewrite run_forM_sync_cons.
    destruct (syncOperation_frame op w) as (_ & _ & _ & n1 & Hr1 & Hs1).
    destruct (IH (exec (syncOperation op) w)) as (n2 & Hr2 & Hs2).
    exists (n1 ++ n2). unfold exec in *. rewrite Hr2, Hr1, <- app_assoc.
    split; [done|]. rewrite fmap_app, Hs1, Hs2. simpl.
    by destruct (dispatch op).
Qed.
End Drain.

Lemma has_id_nonnull op s : has_id op s -> op ≠ JNull.
Proof. by intros Hid ->. Qed.

Lemma other_id_has_id op s s' :
  has_id op s -> other_id (Some (JStr s')) op = negb (String.eqb s s').
Proof. unfold other_id, has_id. by intros ->. Qed.






Lemma elem_of_filter_bool {A} (f : A -> bool) (l : list A) x :
  x ∈ List.filter f l ↔ x ∈ l ∧ f x = true.
Proof. rewrite !list_elem_of_In. apply List.filter_In. Qed.

Section Pass.
Context `{Host}.

Lemma exec_syncOperation op w :
  exec (syncOperation op) w
  = if is_Ok (eval (processQueuedOperation op) w)
    then exec (offlineStorage.removeQueuedOperation (field "id" op))
              (exec (processQueuedOperation op) w)
    else logged "Failed to sync operation:" (exec (processQueuedOperation op) w).
Proof. unfold exec at 1. by rewrite run_syncOperation. Qed.

Lemma exec_forM_sync_cons op ops w :
  exec (forM_ syncOperation (op :: ops)) w
  = exec (forM_ syncOperation ops) (exec (syncOperation op) w).
Proof. unfold exec at 1 2. by rewrite run_forM_sync_cons. Qed.

Lemma exec_forM_sync_app before after : ∀ w,
  exec (forM_ syncOperation (before ++ after)) w
  = exec (forM_ syncOperation after) (exec (forM_ syncOperation before) w).
Proof.
  induction before as [|b before IH]; intros w; [done|].
  simpl app. by rewrite !exec_forM_sync_cons, IH.
Qed.

Lemma exec_removeQueuedOperation operationId w q :
  persisted w q ->
  Forall (λ op, op ≠ JNull) q ->
  exec (offlineStorage.removeQueuedOperation operationId) w
  = set_store <[offlineStorage.queue_key :=
                  JArr (List.filter (other_id operationId) q)]> w.
Proof. intros Hq Hwf. unfold exec. by rewrite (run_removeQueuedOperation _ _ q). Qed.


(** The persisted queue only shrinks during a pass. *)
Lemma drain_shrinks ops : ∀ w q,
  persisted w q ->
  Forall (λ op, op ≠ JNull) q ->
  ∃ q', persisted (exec (forM_ syncOperation ops) w) q' ∧ q' ⊆ q.
Proof.
  induction ops as [|op ops IH]; intros w q Hq Hwf; [by exists q|].
  rewrite exec_forM_sync_cons, exec_syncOperation.
  pose proof (processQueuedOperation_frame op w) as (Hs & _).
  set (w1 := exec (processQueuedOperation op) w) in *.
  assert (persisted w1 q) as Hq1 by (by apply (persisted_same_store w)).
  destruct (is_Ok _).
  - rewrite (exec_removeQueuedOperation _ _ _ Hq1 Hwf).
    pose proof (persisted_after_store w1 (List.filter (other_id (field "id" op)) q)) as Hp.
    destruct (IH _ _ Hp) as (q' & Hq' & Hsub).
    + rewrite Forall_forall in *. intros x Hx.
      apply elem_of_filter_bool in Hx as [Hx _]. auto.
    + exists q'. split; [done|]. intros x Hx.
      apply Hsub, elem_of_filter_bool in Hx. tauto.
  - apply IH; [|done]. by apply (persisted_same_store w1).
Qed.

(** Once an operation has been replayed successfully, no operation with
    its id is left in the persisted queue, for the rest of the pass. *)
Lemma drain_removes_id before op after s w q :
  persisted w q ->
  Forall (λ op, op ≠ JNull) q ->
  has_id op s ->
  eval (processQueuedOperation op) (exec (forM_ syncOperation before) w) = Ok tt ->
  ∃ q', persisted (exec (forM_ syncOperation (before ++ op :: after)) w) q' ∧
        q' ⊆ q ∧ Forall (λ x, ¬ has_id x s) q'.
Proof.
  intros Hq Hwf Hid Hok.
  destruct (drain_shrinks before w q Hq Hwf) as (q1 & Hq1 & Hsub1).
  rewrite exec_forM_sync_app, exec_forM_sync_cons, exec_syncOperation.
  set (w1 := exec (forM_ syncOperation before) w) in *.
  assert (Forall (λ op, op ≠ JNull) q1) as Hwf1.
  { rewrite Forall_forall in *. eauto. }
  pose proof (processQueuedOperation_frame op w1) as (Hs & _).
  rewrite Hok. cbn [is_Ok].
  set (w2 := exec (processQueuedOperation op) w1) in *.
  assert (persisted w2 q1) as Hq2 by (by apply (persisted_same_store w1)).
  rewrite (exec_removeQueuedOperation _ _ _ Hq2 Hwf1).
  pose proof (persisted_after_store w2 (List.filter (other_id (field "id" op)) q1)) as Hp.
  destruct (drain_shrinks after _ _ Hp) as (q' & Hq' & Hsub).
  - rewrite Forall_forall in *. intros x Hx.
      apply elem_of_filter_bool in Hx as [Hx _]. auto.
  - exists q'. split; [done|]. split.
    + intros x Hx. apply Hsub, elem_of_filter_bool in Hx. apply Hsub1. tauto.
    + rewrite Forall_forall. intros x Hx Hx'.
      apply Hsub, elem_of_filter_bool in Hx as [_ Hx]. rewrite Hid in Hx.
      rewrite (other_id_has_id _ _ _ Hx'), String.eqb_refl in Hx. done.
Qed.
End Pass.

Lemma omap_cons_Some {A B} (f : A -> option B) a c l :
  f a = Some c -> omap f (a :: l) = c :: omap f l.
Proof. intros Hf. simpl. by rewrite Hf. Qed.

Section Sync.
Context `{Host}.

(** A replay returns unless its remote call is answered by an error. *)
Lemma replay_outcome op w :
  op ≠ JNull ->
  match dispatch op with
  | None =>
      eval (processQueuedOperation op) w = Ok tt ∧
      requests (exec (processQueuedOperation op) w) = requests w
  | Some c =>
      ∃ r, signature r = call_signature c ∧
           requests (exec (processQueuedOperation op) w) = requests w ++ [r] ∧
           eval (processQueuedOperation op) w
           = match remote (requests w) r with
             | RData _ => Ok tt
             | RError error => Throw (RemoteError error)
             end
  end.
Proof.
  intros Hop. unfold eval, exec. rewrite run_processQueuedOperation by done.
  destruct (dispatch op) as [c|].
  - destruct (run_perform c w) as (r & k & Hsig & ->). exists r.
    split; [done|]. simpl. by destruct (later_frame k w) as (_ & _ & _ & -> & _).
  - by destruct (known_table _).
Qed.


(** C3. The requests of a pass follow the order of the persisted list:
    of two queued operations that both have a dispatch branch, the earlier
    one's request is sent before the later one's, whatever the outcome of
    any replay; and [queueOperation] appends at the end of the persisted
    list, so that list order is enqueue order. *)
Theorem replay_in_queue_order w q :
  isOnline w = true ->
  persisted w q ->
  let w' := exec syncOfflineData w in
  (∃ new, requests w' = requests w ++ new ∧
          signature <$> new = call_signature <$> omap dispatch q) ∧
  (∀ before a between b after ca cb,
     q = before ++ a :: between ++ b :: after ->
     dispatch a = Some ca -> dispatch b = Some cb ->
     ∃ r1 ra r2 rb r3,
       requests w' = requests w ++ r1 ++ ra :: r2 ++ rb :: r3 ∧
       signature ra = call_signature ca ∧ signature rb = call_signature cb) ∧
  (∀ o w0 q0, persisted w0 q0 ->
     ∃ j, stamped o j ∧
          persisted (exec (offlineStorage.queueOperation o) w0) (q0 ++ [j])).
Proof.
  intros Hon Hq w'. subst w'. unfold exec at 1 2.
  rewrite (run_syncOfflineData w q Hon Hq). cbn [snd].
  destruct (drain_requests q w) as (new & Hr & Hsig).
  split_and!.
  - eauto.
  - intros before a between b after ca cb -> Ha Hb.
    rewrite omap_app, (omap_cons_Some _ _ _ _ Ha) in Hsig.
    rewrite omap_app, (omap_cons_Some _ _ _ _ Hb) in Hsig.
    repeat (rewrite fmap_app in Hsig || rewrite fmap_cons in Hsig).
    apply fmap_app_inv in Hsig as (r1 & rest & H1 & Hrest & ->).
    symmetry in Hrest. apply fmap_cons_inv in Hrest as (ra & rest' & Hra & Hrest & ->).
    symmetry in Hrest.
    apply fmap_app_inv in Hrest as (r2 & rest & H2 & Hrest & ->).
    symmetry in Hrest. apply fmap_cons_inv in Hrest as (rb & r3 & Hrb & _ & ->).
    exists r1, ra, r2, rb, r3. by rewrite Hr.
  - intros o w0 q0 Hq0. eexists. split; [apply stamped_queued|].
    unfold exec. rewrite (run_queueOperation o w0 q0 Hq0). cbn [snd].
    apply persisted_after_store.
Qed.
End Sync.

Lemma is_text_inj a b v : is_text a v = true -> is_text b v = true -> a = b.
Proof.
  unfold is_text, strict_eq. destruct v as [[| | |s| |]|]; try done.
  intros Ha%String.eqb_eq Hb%String.eqb_eq. congruence.
Qed.

Lemma unhandled_dispatch op : unhandled op ↔ dispatch op = None.
Proof.
  unfold unhandled, dispatch, known_table.
  destruct (is_text "projects" (field "table" op)) eqn:Hp;
  destruct (is_text "milestones" (field "table" op)) eqn:Hm;
  destruct (is_text "outsourcing" (field "table" op)) eqn:Ho;
  destruct (is_text "payments" (field "table" op)) eqn:Hy;
  destruct (is_text "create" (field "type" op)) eqn:Hc;
  destruct (is_text "update" (field "type" op)) eqn:Hu;
  destruct (is_text "delete" (field "type" op)) eqn:Hd;
  simpl; split; intros; try done; try tauto; try (intuition congruence).
  all: exfalso;
    match goal with
    | Ha : is_text ?a ?v = true, Hb : is_text ?b ?v = true |- _ =>
        assert (a = b) by (by eapply is_text_inj); discriminate
    end.
Qed.

Section Discard.
Context `{Host}.

(** C9. An operation without dispatch branch (a delete on milestones,
    outsourcing or payments, any type on an unknown table, an unknown type
    on a known table) is replayed without any request to the remote service
    and without error; the pass therefore removes it from the persisted
    queue, together with every operation of the same id. *)
Theorem unhandled_operation_discarded op s :
  unhandled op ->
  has_id op s ->
  (∀ w, eval (processQueuedOperation op) w = Ok tt ∧
        requests (exec (processQueuedOperation op) w) = requests w) ∧
  (∀ w q before after,
     isOnline w = true -> persisted w q -> Forall (λ x, x ≠ JNull) q ->
     q = before ++ op :: after ->
     ∃ q', persisted (exec syncOfflineData w) q' ∧ q' ⊆ q ∧ (op ∉ q') ∧
           Forall (λ x, ¬ has_id x s) q').
Proof.
  intros Hun Hid. apply unhandled_dispatch in Hun.
  pose proof (has_id_nonnull _ _ Hid) as Hop.
  assert (∀ w, eval (processQueuedOperation op) w = Ok tt ∧
               requests (exec (processQueuedOperation op) w) = requests w) as Hrun.
  { intros w. pose proof (replay_outcome op w Hop) as Ho. by rewrite Hun in Ho. }
  split; [done|].
  intros w q before after Hon Hq Hwf ->. unfold exec.
  rewrite (run_syncOfflineData w _ Hon Hq). cbn [snd].
  destruct (drain_removes_id before op after s w _ Hq Hwf Hid) as (q' & Hq' & Hsub & Hno).
  { apply Hrun. }
  exists q'. split_and!; try done.
  intros Hin. rewrite Forall_forall in Hno. by apply (Hno op).
Qed.

(** C10. [removeQueuedOperation] removes every queued operation whose id
    is the given one.  Hence, when two queued operations share an id and
    the earlier one is replayed successfully, the later one is gone from
    the persisted queue from that moment on, and is not in the queue at the
    end of the pass, whether its own replay succeeds or throws. *)
Theorem remove_by_id_removes_all w q s :
  persisted w q ->
  Forall (λ x, x ≠ JNull) q ->
  let w1 := exec (offlineStorage.removeQueuedOperation (Some (JStr s))) w in
  persisted w1 (List.filter (other_id (Some (JStr s))) q) ∧
  Forall (λ x, ¬ has_id x s) (List.filter (other_id (Some (JStr s))) q) ∧
  (∀ x, x ∈ q -> ¬ has_id x s -> x ∈ List.filter (other_id (Some (JStr s))) q) ∧
  (∀ before a between b after,
     q = before ++ a :: between ++ b :: after ->
     isOnline w = true ->
     has_id a s -> has_id b s ->
     eval (processQueuedOperation a) (exec (forM_ syncOperation before) w) = Ok tt ->
     (∃ q1, persisted (exec (forM_ syncOperation (before ++ [a])) w) q1 ∧ (b ∉ q1)) ∧
     (∃ q', persisted (exec syncOfflineData w) q' ∧ (b ∉ q') ∧
            Forall (λ x, ¬ has_id x s) q')).
Proof.
  intros Hq Hwf w1. subst w1.
  rewrite (exec_removeQueuedOperation _ _ _ Hq Hwf).
  split_and!.
  - apply persisted_after_store.
  - rewrite Forall_forall. intros x Hx Hx'.
    apply elem_of_filter_bool in Hx as [_ Hx].
    by rewrite (other_id_has_id _ _ _ Hx'), String.eqb_refl in Hx.
  - intros x Hx Hx'. apply elem_of_filter_bool. split; [done|].
    unfold other_id, has_id in *. unfold strict_eq.
    destruct (field "id" x) as [[| | |s'| |]|]; try done.
    destruct (String.eqb_spec s' s) as [->|]; done.
  - intros before a between b after -> Hon Ha Hb Hok.
    split.
    + destruct (drain_removes_id before a [] s w _ Hq Hwf Ha Hok) as (q1 & Hq1 & _ & Hno).
      exists q1. split; [done|]. intros Hin. rewrite Forall_forall in Hno.
      by apply (Hno b).
    + unfold exec at 1. rewrite (run_syncOfflineData w _ Hon Hq). cbn [snd].
      destruct (drain_removes_id before a (between ++ b :: after) s w _ Hq Hwf Ha Hok)
        as (q' & Hq' & _ & Hno).
      exists q'. split_and!; try done. intros Hin. rewrite Forall_forall in Hno.
      by apply (Hno b).
Qed.
End Discard.

(** ** Object fields *)

Lemma lookup_set_field_eq k v fields : lookup_field k (set_field k v fields) = Some v.
Proof.
  induction fields as [|[k' v'] fields IH]; simpl.
  - by rewrite String.eqb_refl.
  - destruct (String.eqb k k') eqn:E; simpl; rewrite ?String.eqb_refl, ?E; done.
Qed.


(** ** The invariant of the persisted queue *)

Lemma queued_has_id o t id : has_id (offlineStorage.queued o t id) id.
Proof.
  unfold has_id, offlineStorage.queued, field. apply lookup_set_field_eq.
Qed.

Lemma has_ids_nonnull q :
  Forall (λ op, ∃ s, has_id op s) q -> Forall (λ op, op ≠ JNull) q.
Proof.
  intros Hq. eapply Forall_impl; [exact Hq|].
  intros op [s Hs]. by eapply has_id_nonnull.
Qed.

Lemma well_formed_initial : well_formed_queue initial_world.
Proof. by exists []. Qed.

Lemma well_formed_restart w : well_formed_queue w -> well_formed_queue (restart w).
Proof. intros (q & Hq & Hwf). by exists q. Qed.

Section Invariant.
Context `{Host}.

Lemma well_formed_queueOperation o w :
  well_formed_queue w -> well_formed_queue (exec (offlineStorage.queueOperation o) w).
Proof.
  intros (q & Hq & Hwf). unfold exec. rewrite (run_queueOperation o w q Hq).
  eexists. split; [apply persisted_after_store|].
  apply Forall_app. split; [done|]. constructor; [|done].
  eexists. apply queued_has_id.
Qed.

Lemma well_formed_removeQueuedOperation operationId w :
  well_formed_queue w ->
  well_formed_queue (exec (offlineStorage.removeQueuedOperation operationId) w).
Proof.
  intros (q & Hq & Hwf).
  rewrite (exec_removeQueuedOperation _ _ _ Hq (has_ids_nonnull _ Hwf)).
  eexists. split; [apply persisted_after_store|].
  rewrite Forall_forall in *. intros x Hx.
  apply elem_of_filter_bool in Hx as [Hx _]. auto.
Qed.

Lemma well_formed_syncOfflineData w :
  well_formed_queue w -> well_formed_queue (exec syncOfflineData w).
Proof.
  intros (q & Hq & Hwf). destruct (isOnline w) eqn:Hon.
  - unfold exec. rewrite (run_syncOfflineData w q Hon Hq). cbn [snd].
    destruct (drain_shrinks q w q Hq (has_ids_nonnull _ Hwf)) as (q' & Hq' & Hsub).
    exists q'. split; [done|]. rewrite Forall_forall in *. auto.
  - unfold exec. rewrite (run_syncOfflineData_offline w Hon). by exists q.
Qed.

End Invariant.

Section Facade.
Context `{Host}.

#[local] Hint Rewrite @run_send : run.

(** A cache read returns normally whatever the store holds, and sends
    nothing. *)
Lemma getCachedData_total key w :
  ∃ found w', offlineStorage.getCachedData key w = (Ok found, w') ∧
              requests w' = requests w ∧ isOnline w' = isOnline w ∧
              networkListeners w' = networkListeners w ∧ notified w' = notified w.
Proof.
  unfold offlineStorage.getCachedData. step.
  assert (∀ (v : jsval) w0, w0 = tick w ∨ w0 = w ∨ w0 = set_store (base.delete (offlineStorage.cache_key key)) (tick w) ->
    ∃ (found : jsval) w', (Ok v, w0) = (Ok found, w') ∧
              requests w' = requests w ∧ isOnline w' = isOnline w ∧
              networkListeners w' = networkListeners w ∧ notified w' = notified w) as Hdone.
  { intros v w0 [->|[->| ->]]; eexists v, _; by split. }
  destruct (stored (offlineStorage.cache_key key) w) as [|b|n|s|items|fields];
    cbn [truthy negb];
    [ | destruct b | destruct (n =? 0) | destruct (String.eqb s "") | | ];
    cbn [negb]; step; cbn [get_prop]; step;
    try destruct (offlineStorage.isExpired _ _ _); step; auto.
Qed.

Lemma run_select_from tbl column id w :
  dbHelpers.select_from tbl column id w
  = (match remote (requests w) (mkRequest Select tbl [] (dbHelpers.optional_eq column id)) with
     | RData rows => Ok rows
     | RError error => Throw (RemoteError error)
     end,
     sent (mkRequest Select tbl [] (dbHelpers.optional_eq column id)) w).
Proof.
  unfold dbHelpers.select_from, dbHelpers.unwrap. step.
  by destruct (remote _ _).
Qed.

(** C5. A read through the facade: online with a successful remote read,
    the result is the remote rows and the cache entry of the table is
    rewritten with them; online with a failed remote read, the result is
    what the cache yields, or the empty list; offline, the result is what
    the cache yields, or the empty list, and no request is sent.  The cache
    yields the cached value while its entry is fresh and nothing when the
    entry is absent.  [getProjects] and [getMilestones] are such reads. *)
Theorem read_through what key tbl column id w :
  let get := offlineAwareOperations.getThrough what key
               (dbHelpers.select_from tbl column id) in
  let req := mkRequest Select tbl [] (dbHelpers.optional_eq column id) in
  let w' := exec get w in
  (∀ rows, isOnline w = true -> remote (requests w) req = RData rows ->
     eval get w = Ok (Some rows) ∧
     store w' !! ("cache_" +:+ key)
     = Some (offlineStorage.cacheItem rows (clock (clock_reads w)) 3600000) ∧
     requests w' = requests w ++ [req]) ∧
  (∀ error, isOnline w = true -> remote (requests w) req = RError error ->
     ∃ found,
       eval (offlineStorage.getCachedData key)
            (logged ("Failed to fetch " +:+ what +:+ " online, using cache:")
                 (sent req w)) = Ok found ∧
       eval get w = Ok (js_or found (Some (JArr []))) ∧
       requests w' = requests w ++ [req]) ∧
  (isOnline w = false ->
     ∃ found,
       eval (offlineStorage.getCachedData key) w = Ok found ∧
       eval get w = Ok (js_or found (Some (JArr []))) ∧
       requests w' = requests w) ∧
  (∀ w0 data timestamp ttl,
     store w0 !! ("cache_" +:+ key) = Some (offlineStorage.cacheItem data timestamp ttl) ->
     clock (clock_reads w0) - timestamp <= ttl ->
     eval (offlineStorage.getCachedData key) w0 = Ok (Some data)) ∧
  (∀ w0, store w0 !! ("cache_" +:+ key) = None ->
     eval (offlineStorage.getCachedData key) w0 = Ok (Some JNull)) ∧
  offlineAwareOperations.getProjects
  = offlineAwareOperations.getThrough "projects" "projects"
      (dbHelpers.select_from "projects" "created_by" None) ∧
  (∀ projectId,
     offlineAwareOperations.getMilestones projectId
     = offlineAwareOperations.getThrough "milestones" (milestones_key projectId)
         (dbHelpers.select_from "milestones" "project_id" projectId)).
Proof.
  intros get req w'. subst get req w'. unfold eval, exec.
  split_and!.
  - intros rows Hon Hr. unfold offlineAwareOperations.getThrough. step.
    rewrite Hon. cbv iota. step. rewrite run_select_from, Hr. step.
    rewrite run_cacheData. step. cbn. split_and!; try done.
    apply lookup_insert_eq.
  - intros error Hon Hr. unfold offlineAwareOperations.getThrough. step.
    rewrite Hon. cbv iota. step. rewrite run_select_from, Hr. step.
    set (w1 := logged _ _).
    destruct (getCachedData_total key w1) as (found & w2 & Hg & Hr2 & _).
    exists found. rewrite Hg. step. by cbn.
  - intros Hoff. unfold offlineAwareOperations.getThrough. step.
    rewrite Hoff. cbv iota. step.
    destruct (getCachedData_total key w) as (found & w2 & Hg & Hr2 & _).
    exists found. rewrite Hg. step. by cbn.
  - intros w0 data t ttl Hs Hle. by rewrite (run_getCachedData_fresh _ _ _ _ _ Hs Hle).
  - intros w0 Hs. by rewrite (run_getCachedData_absent _ _ Hs).
  - reflexivity.
  - reflexivity.
Qed.
End Facade.

Lemma run_notify b ls : ∀ w,
  forM_ (fun listener => modify (called listener b)) ls w = (Ok tt, notify_all b ls w).
Proof.
  induction ls as [|l ls IH]; intros w; [done|].
  cbn [forM_]. step. by rewrite IH.
Qed.

Lemma notify_all_frame b ls : ∀ w,
  store (notify_all b ls w) = store w ∧
  isOnline (notify_all b ls w) = isOnline w ∧
  networkListeners (notify_all b ls w) = networkListeners w ∧
  requests (notify_all b ls w) = requests w ∧
  notified (notify_all b ls w) = notified w ++ ((λ l, (l, b)) <$> ls).
Proof.
  induction ls as [|l ls IH]; intros w.
  - simpl. by rewrite app_nil_r.
  - simpl. destruct (IH (called l b w)) as (-> & -> & -> & -> & ->).
    simpl. by rewrite <- app_assoc.
Qed.

Lemma set_isOnline_same w : set_isOnline (isOnline w) w = w.
Proof. by destruct w. Qed.

Section Monitor.
Context `{Host}.

Lemma forM_sync_frame ops : ∀ w,
  let w' := exec (forM_ syncOperation ops) w in
  isOnline w' = isOnline w ∧ networkListeners w' = networkListeners w ∧
  notified w' = notified w.
Proof.
  induction ops as [|op ops IH]; intros w; [done|].
  cbv zeta. rewrite exec_forM_sync_cons.
  destruct (syncOperation_frame op w) as (Ho & Hl & Hn & _).
  destruct (IH (exec (syncOperation op) w)) as (-> & -> & ->). done.
Qed.

(** A pass returns normally from any world and touches neither the
    network state nor the subscribers. *)
Lemma syncOfflineData_frame w :
  let w' := exec syncOfflineData w in
  eval syncOfflineData w = Ok tt ∧
  isOnline w' = isOnline w ∧ networkListeners w' = networkListeners w ∧
  notified w' = notified w.
Proof.
  unfold eval, exec, syncOfflineData. step.
  destruct (isOnline w) eqn:Hon; cbn [negb]; step; [|done].
  rewrite run_getQueuedOperations. step.
  destruct (js_or _ _) as [[| | |s|items|]|]; cbn [iterate]; step; try done.
  - pose proof (forM_sync_returns (JStr <$> chars s) w) as Hr.
    pose proof (forM_sync_frame (JStr <$> chars s) w) as Hf.
    unfold eval, exec in *. destruct (forM_ _ _ w) as [r w']. simpl in *.
    subst r. by rewrite Hon in Hf.
  - pose proof (forM_sync_returns items w) as Hr.
    pose proof (forM_sync_frame items w) as Hf.
    unfold eval, exec in *. destruct (forM_ _ _ w) as [r w']. simpl in *.
    subst r. by rewrite Hon in Hf.
Qed.

Lemma run_onStatus new w :
  onStatus new w
  = if Bool.eqb (isOnline w) new then (Ok tt, w)
    else if new
         then syncOfflineData (notify_all true (networkListeners w) (set_isOnline true w))
         else (Ok tt, notify_all false (networkListeners w) (set_isOnline false w)).
Proof.
  unfold onStatus. step. cbn [isOnline set_isOnline].
  destruct (Bool.eqb (isOnline w) new) eqn:E; cbn [negb]; step.
  - apply Bool.eqb_prop in E. subst new. by rewrite set_isOnline_same.
  - cbn [networkListeners set_isOnline]. rewrite run_notify. step.
    by destruct new.
Qed.

(** C8. When the platform delivers a connectivity state that differs from
    the current one, the state is updated, every subscriber is invoked once
    with the new state, in subscription order, and then, if the new state
    is online, [syncOfflineData] runs; if the new state is offline nothing
    else happens.  When the delivered state equals the current one nothing
    happens at all.  A freshly started process is online. *)
Theorem connectivity_event ev new w :
  reported OS ev = Some new ->
  let w' := exec (initializeNetworkMonitoring ev) w in
  let told := notify_all new (networkListeners w) (set_isOnline new w) in
  eval (initializeNetworkMonitoring ev) w = Ok tt ∧
  (new ≠ isOnline w ->
     isOnline w' = new ∧
     notified w' = notified w ++ ((λ l, (l, new)) <$> networkListeners w) ∧
     (new = true -> w' = exec syncOfflineData told) ∧
     (new = false -> w' = told ∧ requests w' = requests w ∧ store w' = store w)) ∧
  (new = isOnline w -> w' = w) ∧
  eval getNetworkStatus initial_world = Ok true ∧
  eval getNetworkStatus (restart w) = Ok true.
Proof.
  intros Hev w' told. subst w' told.
  assert (initializeNetworkMonitoring ev w = onStatus new w) as Hhandler.
  { unfold initializeNetworkMonitoring, reported in *.
    destruct OS, ev; try done; by injection Hev as <-. }
  unfold eval, exec. rewrite Hhandler, run_onStatus.
  destruct (notify_all_frame new (networkListeners w) (set_isOnline new w))
    as (Hs & Ho & Hl & Hr & Hn).
  destruct (Bool.eqb (isOnline w) new) eqn:E.
  - apply Bool.eqb_prop in E. split_and!; try done.
    all: intros Hne; by destruct Hne.
  - apply Bool.eqb_false_iff in E. destruct new.
    + pose proof (syncOfflineData_frame
                    (notify_all true (networkListeners w) (set_isOnline true w)))
        as (Hret & Ho' & _ & Hn').
      unfold eval, exec in *. split_and!; try done.
      all: try (intros Heq; by destruct E).
      intros _. rewrite Ho', Hn', Ho, Hn. split_and!; done.
    + split_and!; try done.
      all: try (intros Heq; by destruct E).
Qed.
End Monitor.


Lemma js_or_list l : js_or (Some (JArr l)) (Some (JArr [])) = Some (JArr l).
Proof. done. Qed.

Section Optimistic.
Context `{Host}.









End Optimistic.

(** * The properties at concrete inputs *)

Lemma cache_ttl_witness :
  let H := example_host native in
  let rows := JArr [example_row "A"; example_row "B"] in
  let w := exec (offlineStorage.cacheData "projects" rows None) offline_world in
  eval (offlineStorage.getCachedData "projects") w = Ok (Some rows) ∧
  eval (offlineStorage.getCachedData "projects") (later 100 w) = Ok (Some JNull) ∧
  store (exec (offlineStorage.getCachedData "projects") (later 100 w))
  = base.delete "cache_projects" (store (later 100 w)).
Proof.
  intros H rows w.
  destruct (@cache_ttl H "projects" rows 1000 3600000 w eq_refl) as (Hfresh & _).
  destruct (@cache_ttl H "projects" rows 1000 3600000 (later 100 w) eq_refl)
    as (_ & _ & Hold & _).
  split; [apply Hfresh; by vm_compute|].
  apply Hold. by vm_compute.
Defined.




Lemma read_through_witness :
  let H := example_host native in
  let rows := JArr [example_row "A"; example_row "B"] in
  let w1 := exec offlineAwareOperations.getProjects initial_world in
  let w2 := set_isOnline false w1 in
  eval offlineAwareOperations.getProjects initial_world = Ok (Some rows) ∧
  eval offlineAwareOperations.getProjects w2 = Ok (Some rows) ∧
  requests (exec offlineAwareOperations.getProjects w2) = requests w2.
Proof.
  intros H rows w1 w2.
  destruct (@read_through H "projects" "projects" "projects" "created_by" None initial_world)
    as (Hon & _).
  destruct (Hon rows eq_refl eq_refl) as (Hret & _).
  destruct (@read_through H "projects" "projects" "projects" "created_by" None w2)
    as (_ & _ & Hoff & Hfresh & _).
  destruct (Hoff eq_refl) as (found & Hfound & Hret2 & Hreq).
  split; [exact Hret|]. split; [|exact Hreq].
  rewrite (Hfresh w2 rows 1000 3600000 eq_refl) in Hfound by (by vm_compute).
  injection Hfound as <-. exact Hret2.
Defined.


Lemma connectivity_event_witness :
  let H := example_host native in
  let w := set_isOnline false (exec (addNetworkListener 7%nat) (example_world three_ops)) in
  let w' := exec (initializeNetworkMonitoring (NetInfoState (Some true))) w in
  isOnline w' = true ∧ notified w' = [(7%nat, true)] ∧
  w' = exec syncOfflineData (notify_all true [7%nat] (set_isOnline true w)).
Proof.
  intros H w w'.
  destruct (@connectivity_event H (NetInfoState (Some true)) true w eq_refl)
    as (_ & Hchange & _).
  destruct Hchange as (Hon & Hnot & Hsync & _); [done|].
  split; [exact Hon|]. split; [exact Hnot|]. by apply Hsync.
Defined.



Lemma replay_in_queue_order_witness :
  let H := example_host native in
  let w := example_world create_then_update in
  ∃ ra rb, requests (exec syncOfflineData w) = [ra; rb] ∧
           verb ra = Insert ∧ verb rb = Update ∧
           eq_filter rb = [("id", Some (JStr "temp_1"))].
Proof.
  intros H w.
  destruct (@replay_in_queue_order H w create_then_update) as (_ & Horder & _);
    [reflexivity | reflexivity |].
  destruct (Horder [] _ [] _ [] _ _ eq_refl eq_refl eq_refl)
    as (r1 & ra & r2 & rb & r3 & Hreq & Ha & Hb).
  exists ra, rb.
  assert (length (requests (exec syncOfflineData w)) = 2%nat) as Hlen by reflexivity.
  rewrite Hreq in Hlen |- *. simpl in Hlen. rewrite !length_app in Hlen. simpl in Hlen.
  rewrite !length_app in Hlen. simpl in Hlen.
  destruct r1; [|simpl in Hlen; lia]. destruct r2; [|simpl in Hlen; lia].
  destruct r3; [|simpl in Hlen; lia]. simpl.
  unfold signature in *. simpl in Ha, Hb. split; [done|].
  injection Ha as -> _ _. injection Hb as -> _ ->. done.
Defined.

Lemma unhandled_operation_discarded_witness :
  let H := example_host native in
  let w := example_world stray_ops in
  requests (exec syncOfflineData w) = [] ∧ persisted (exec syncOfflineData w) [].
Proof.
  intros H w.
  destruct (@unhandled_operation_discarded H
              (example_op "create" "invoices" "stray" "temp_4_0.25" 4) "temp_4_0.25")
    as (Hrun & Hpass).
  - right. left. reflexivity.
  - reflexivity.
  - destruct (Hpass w stray_ops [] []) as (q' & Hq' & Hsub & Hnot & _);
      [reflexivity | reflexivity | by repeat constructor | reflexivity |].
    split; [reflexivity|].
    destruct q' as [|x q']; [done|]. exfalso. apply Hnot.
    assert (x ∈ stray_ops) as Hx by (apply Hsub; left).
    apply list_elem_of_singleton in Hx as ->. left.
Defined.

Lemma remove_by_id_removes_all_witness :
  let H := example_host native in
  let w := example_world same_id_ops in
  persisted (exec (offlineStorage.removeQueuedOperation (Some (JStr "p7"))) w) [] ∧
  ∃ q', persisted (exec syncOfflineData w) q' ∧
        (example_op "update" "projects" "bad" "p7" 2 ∉ q').
Proof.
  intros H w.
  destruct (@remove_by_id_removes_all H w same_id_ops "p7")
    as (Hrm & _ & _ & Hpass); [reflexivity | by repeat constructor |].
  split; [exact Hrm|].
  destruct (Hpass [] _ [] _ [] eq_refl eq_refl eq_refl eq_refl eq_refl)
    as (_ & q' & Hq' & Hnot & _).
  by exists q'.
Defined.
